(** * zapcloudlogging: Cloud Logging field layout for zap

    A shallow embedding of the package [zapcloudlogging] (files
    [encoder.go] and [config.go]) together with the parts of its
    collaborators that the package calls into: [strconv.Itoa], a few
    methods of [time.Time], and the encoder interfaces, the caller
    descriptor and the configuration records of [go.uber.org/zap].

    Conventions.
    - Go integers are [Z]; where a conversion between widths happens it
      is written out.
    - Go strings are byte strings, i.e. Rocq [string]s.
    - An encoder is mutated in place by the Go code; here every method
      takes the encoder and returns the updated one.
    - Pointers ([*SamplingConfig], the cell behind an [AtomicLevel], the
      backing array of a slice) are locations of an explicit heap. *)

From Stdlib Require Import ZArith String Ascii DecimalString DecimalPos DecimalZ.
From stdpp Require Import gmap strings list fin_maps.

Local Open Scope Z_scope.

(** ** Package [strconv] *)

Module strconv.

(** [strconv.Itoa]: the decimal representation of [i], with a leading
    minus sign for negative numbers and no padding. *)
Definition Itoa (i : Z) : string := NilZero.string_of_int (Z.to_int i).

End strconv.

(** ** Package [strings] *)

Module strings.

(** Scan [s] from position [i], remembering in [acc] the last position
    at which [c] was seen. *)
Fixpoint lastIndexByteFrom (i : Z) (acc : Z) (s : string) (c : ascii) : Z :=
  match s with
  | EmptyString => acc
  | String a s' =>
      lastIndexByteFrom (i + 1) (if Ascii.eqb a c then i else acc) s' c
  end.

(** [strings.LastIndexByte]: index of the last [c] in [s], or [-1]. *)
Definition LastIndexByte (s : string) (c : ascii) : Z :=
  lastIndexByteFrom 0 (-1) s c.

(** The slice expressions [s[:i]] and [s[i:]] for [0 <= i <= len(s)]. *)
Definition sliceTo (s : string) (i : Z) : string :=
  String.substring 0 (Z.to_nat i) s.

Definition sliceFrom (s : string) (i : Z) : string :=
  String.substring (Z.to_nat i) (String.length s - Z.to_nat i)%nat s.

End strings.

(** ** Package [time] *)

Module time.

(** A [time.Time] denotes an instant with nanosecond precision, seen
    in some location.  The instant is kept as the count of nanoseconds
    since the Unix epoch (negative before 1970) and the location as
    the offset, in seconds east of UTC, in force at that instant. *)
Record Time := mkTime {
  instant : Z;
  offset : Z
}.

(** [t.Unix()]: whole seconds elapsed since January 1, 1970 UTC.  Go
    returns an int64; the times Go can hold are those whose count of
    seconds fits, so no wrap-around is written here. *)
Definition Unix (t : Time) : Z := instant t / 1000000000.

(** [t.Nanosecond()]: the nanosecond offset within the second. *)
Definition Nanosecond (t : Time) : Z := instant t mod 1000000000.

(** [time.Unix(sec, nsec)] in UTC: [nsec] may lie outside
    [[0, 999999999]]; the result is normalised. *)
Definition UnixUTC (sec nsec : Z) : Time :=
  mkTime (sec * 1000000000 + nsec) 0.

(** A [time.Duration] is an int64 count of nanoseconds. *)
Definition Duration := Z.

Definition Nanoseconds (d : Duration) : Z := d.

(** *** Formatting

    A layout is kept in parsed form: the sequence of chunks that the
    formatter walks through.  Only the chunks of [RFC3339Nano] are
    needed here. *)
Inductive chunk :=
| Literal (s : string)
| stdLongYear          (* "2006" *)
| stdZeroMonth         (* "01" *)
| stdZeroDay           (* "02" *)
| stdHour              (* "15" *)
| stdZeroMinute        (* "04" *)
| stdZeroSecond        (* "05" *)
| stdFracSecond9       (* ".999999999", trailing zeros removed *)
| stdISO8601ColonTZ.   (* "Z07:00" *)

Definition Layout := list chunk.

(** ["2006-01-02T15:04:05.999999999Z07:00"] *)
Definition RFC3339Nano : Layout :=
  [ stdLongYear; Literal "-"; stdZeroMonth; Literal "-"; stdZeroDay;
    Literal "T"; stdHour; Literal ":"; stdZeroMinute; Literal ":";
    stdZeroSecond; stdFracSecond9; stdISO8601ColonTZ ].

(** Digits of a non-negative number, no sign, ["0"] for zero. *)
Definition digits (u : Z) : string := NilZero.string_of_uint (N.to_uint (Z.to_N u)).

Fixpoint zeros (n : nat) : string :=
  match n with
  | O => EmptyString
  | S n' => String "0" (zeros n')
  end.

(** [appendInt]: sign, then the digits padded with zeros to [width]. *)
Definition appendInt (x : Z) (width : nat) : string :=
  let d := digits (Z.abs x) in
  let sign := if x <? 0 then "-"%string else EmptyString in
  (sign ++ zeros (width - String.length d)%nat ++ d)%string.

(** Remove the trailing ['0'] characters of a string. *)
Fixpoint trimZeros (s : string) : string :=
  match s with
  | EmptyString => EmptyString
  | String a s' =>
      match trimZeros s' with
      | EmptyString => if Ascii.eqb a "0" then EmptyString else String a EmptyString
      | r => String a r
      end
  end.

(** [appendNano] for the chunk [".999999999"]. *)
Definition appendNano (nanosec : Z) : string :=
  if nanosec =? 0 then EmptyString
  else ("." ++ trimZeros (appendInt nanosec 9))%string.

(** The civil date [(year, month, day)] of a day count relative to
    1970-01-01 in the proleptic Gregorian calendar. *)
Definition civil (days : Z) : Z * Z * Z :=
  let z := days + 719468 in
  let era := z / 146097 in
  let doe := z - era * 146097 in
  let yoe := (doe - doe / 1460 + doe / 36524 - doe / 146096) / 365 in
  let doy := doe - (365 * yoe + yoe / 4 - yoe / 100) in
  let mp := (5 * doy + 2) / 153 in
  let d := doy - (153 * mp + 2) / 5 + 1 in
  let m := if mp <? 10 then mp + 3 else mp - 9 in
  let y := yoe + era * 400 + (if m <=? 2 then 1 else 0) in
  (y, m, d).

(** The constants of Go's calendar (release 1.23 and later).  Dates are
    computed from an unsigned 64-bit count of seconds since the
    absolute zero instant, March 1 of the year -292277022400;
    [unixToAbsolute] is what is added to a Unix time to get there.
    (Releases before 1.23 put the zero at January 1 of the year
    -292277022399, 306 days later; the two differ for times in those
    306 days only.) *)
Definition secondsPerDay : Z := 86400.

Definition absoluteYears : Z := 292277022400.

Definition marchThruDecember : Z := 31 + 30 + 31 + 30 + 31 + 31 + 30 + 31 + 30 + 31.

Definition internalToAbsolute : Z :=
  (absoluteYears / 400 * 146097 + marchThruDecember) * secondsPerDay.

Definition unixToInternal : Z :=
  (1969 * 365 + 1969 / 4 - 1969 / 100 + 1969 / 400) * secondsPerDay.

Definition unixToAbsolute : Z := unixToInternal + internalToAbsolute.

(** [t.absSec()]: the seconds of [t], moved into its location, since
    the absolute zero instant, as a uint64.  The additions are done on
    int64 and the result is converted, so a time before the absolute
    zero wraps around to the far future. *)
Definition absSec (t : Time) : Z :=
  (Unix t + offset t + unixToAbsolute) mod 2 ^ 64.

(** The wall clock reading of [t] in its own location as the calendar
    sees it, in seconds relative to 1970-01-01T00:00:00. *)
Definition wallSeconds (t : Time) : Z := absSec t - unixToAbsolute.

Definition formatChunk (t : Time) (c : chunk) : string :=
  let secs := wallSeconds t in
  let '(year, month, day) := civil (secs / 86400) in
  let sod := secs mod 86400 in
  match c with
  | Literal s => s
  | stdLongYear => appendInt year 4
  | stdZeroMonth => appendInt month 2
  | stdZeroDay => appendInt day 2
  | stdHour => appendInt (sod / 3600) 2
  | stdZeroMinute => appendInt (sod mod 3600 / 60) 2
  | stdZeroSecond => appendInt (sod mod 60) 2
  | stdFracSecond9 => appendNano (Nanosecond t)
  | stdISO8601ColonTZ =>
      if offset t =? 0 then "Z"
      else
        let zone := Z.quot (offset t) 60 in
        let sign := if zone <? 0 then "-"%string else "+"%string in
        let hh := appendInt (Z.abs zone / 60) 2 in
        let mm := appendInt (Z.abs zone mod 60) 2 in
        (sign ++ hh ++ ":" ++ mm)%string
  end.

(** [t.Format(layout)] *)
Definition Format (t : Time) (layout : Layout) : string :=
  String.concat EmptyString (map (formatChunk t) layout).

End time.

(** ** Package [go.uber.org/zap/zapcore] *)

Module zapcore.

(** [type Level int8] with its seven named constants. *)
Definition Level := Z.

Definition DebugLevel : Level := -1.
Definition InfoLevel : Level := 0.
Definition WarnLevel : Level := 1.
Definition ErrorLevel : Level := 2.
Definition DPanicLevel : Level := 3.
Definition PanicLevel : Level := 4.
Definition FatalLevel : Level := 5.

(** The values an [int8] can take. *)
Definition isInt8 (l : Z) : Prop := -128 <= l <= 127.

(** The seven levels zap names. *)
Definition recognized : list Level :=
  [ DebugLevel; InfoLevel; WarnLevel; ErrorLevel;
    DPanicLevel; PanicLevel; FatalLevel ].

(** [OmitKey]: a key of this value makes the engine drop the field. *)
Definition OmitKey : string := EmptyString.

(** [DefaultLineEnding = "\n"] *)
Definition DefaultLineEnding : string :=
  String (ascii_of_nat 10) EmptyString.

(** *** Object encoders

    What an [ObjectEncoder] holds is the sequence of [Add...] calls
    made on it, oldest first. *)
Inductive Value :=
| StringValue (s : string)
| Int64Value (i : Z)
| IntValue (i : Z).

Definition ObjectEncoder := list (string * Value).

Definition AddString (key val : string) (enc : ObjectEncoder) : ObjectEncoder :=
  enc ++ [(key, StringValue val)].

Definition AddInt64 (key : string) (val : Z) (enc : ObjectEncoder) : ObjectEncoder :=
  enc ++ [(key, Int64Value val)].

Definition AddInt (key : string) (val : Z) (enc : ObjectEncoder) : ObjectEncoder :=
  enc ++ [(key, IntValue val)].

(** A Go [error] value; [None] is [nil]. *)
Definition error := option string.

(** [interface ObjectMarshaler { MarshalLogObject(ObjectEncoder) error }]:
    the method takes the encoder and returns it with the error. *)
Definition ObjectMarshaler := ObjectEncoder -> ObjectEncoder * error.

(** *** Array encoders

    The encoder handed to a field encoder is an interface value of
    static type [PrimitiveArrayEncoder].  Its dynamic type may also
    implement [ArrayEncoder] (and so accept nested objects) and the
    unexported interface with [AppendTimeLayout]; the two flags record
    which assertions on the value succeed.  [elems] is what has been
    appended so far. *)
Inductive Element :=
| StringElement (s : string)
| Int64Element (i : Z)
| ObjectElement (fields : list (string * Value)).

Record PrimitiveArrayEncoder := mkEncoder {
  isArrayEncoder : bool;
  isAppendTimeEncoder : bool;
  elems : list Element
}.

Definition append (e : Element) (enc : PrimitiveArrayEncoder) : PrimitiveArrayEncoder :=
  {| isArrayEncoder := isArrayEncoder enc;
     isAppendTimeEncoder := isAppendTimeEncoder enc;
     elems := elems enc ++ [e] |}.

Definition AppendString (s : string) (enc : PrimitiveArrayEncoder) :=
  append (StringElement s) enc.

Definition AppendInt64 (i : Z) (enc : PrimitiveArrayEncoder) :=
  append (Int64Element i) enc.

(** [ArrayEncoder.AppendObject]: the marshaler fills a fresh object,
    the object becomes the next element, and the marshaler's error is
    handed back. *)
Definition AppendObject (v : ObjectMarshaler) (enc : PrimitiveArrayEncoder)
  : PrimitiveArrayEncoder * error :=
  let '(m, err) := v [] in
  (append (ObjectElement m) enc, err).

(** [AppendTimeLayout]: the time formatted by the layout, as a string. *)
Definition AppendTimeLayout (t : time.Time) (layout : time.Layout)
    (enc : PrimitiveArrayEncoder) :=
  append (StringElement (time.Format t layout)) enc.

(** *** Callers *)
Record EntryCaller := mkCaller {
  Defined : bool;
  PC : Z;
  File : string;
  Line : Z;
  Function : string
}.

(** [ec.FullPath()] *)
Definition FullPath (ec : EntryCaller) : string :=
  if Defined ec then (File ec ++ ":" ++ strconv.Itoa (Line ec))%string
  else "undefined"%string.

(** [ec.TrimmedPath()]: the path from the last but one separator on. *)
Definition TrimmedPath (ec : EntryCaller) : string :=
  if negb (Defined ec) then "undefined"%string
  else
    let idx := strings.LastIndexByte (File ec) "/" in
    if idx =? -1 then FullPath ec
    else
      let idx := strings.LastIndexByte (strings.sliceTo (File ec) idx) "/" in
      if idx =? -1 then FullPath ec
      else (strings.sliceFrom (File ec) (idx + 1) ++ ":" ++
            strconv.Itoa (Line ec))%string.

(** *** Field encoders *)
Definition LevelEncoder := Level -> PrimitiveArrayEncoder -> PrimitiveArrayEncoder.
Definition TimeEncoder := time.Time -> PrimitiveArrayEncoder -> PrimitiveArrayEncoder.
Definition DurationEncoder := time.Duration -> PrimitiveArrayEncoder -> PrimitiveArrayEncoder.
Definition CallerEncoder := EntryCaller -> PrimitiveArrayEncoder -> PrimitiveArrayEncoder.
Definition NameEncoder := string -> PrimitiveArrayEncoder -> PrimitiveArrayEncoder.

(** [RFC3339NanoTimeEncoder], through [encodeTimeLayout]. *)
Definition RFC3339NanoTimeEncoder : TimeEncoder := fun t enc =>
  if isAppendTimeEncoder enc then AppendTimeLayout t time.RFC3339Nano enc
  else AppendString (time.Format t time.RFC3339Nano) enc.

(** [MillisDurationEncoder]; Go's [/] on integers truncates. *)
Definition MillisDurationEncoder : DurationEncoder := fun d enc =>
  AppendInt64 (Z.quot (time.Nanoseconds d) 1000000) enc.

(** [EncoderConfig]; a function field is [None] when it is [nil].
    The field [NewReflectedEncoder] is left out: the package never
    sets it. *)
Record EncoderConfig := mkEncoderConfig {
  MessageKey : string;
  LevelKey : string;
  TimeKey : string;
  NameKey : string;
  CallerKey : string;
  FunctionKey : string;
  StacktraceKey : string;
  SkipLineEnding : bool;
  LineEnding : string;
  EncodeLevel : option LevelEncoder;
  EncodeTime : option TimeEncoder;
  EncodeDuration : option DurationEncoder;
  EncodeCaller : option CallerEncoder;
  EncodeName : option NameEncoder;
  ConsoleSeparator : string
}.

(** *** Entries *)
Record Entry := mkEntry {
  EntryLevel : Level;
  EntryTime : time.Time;
  LoggerName : string;
  Message : string;
  Caller : EntryCaller;
  Stack : string
}.

(** When [EncodeEntry], of the JSON and of the console encoder alike,
    writes the function name of the caller as a member of its own: the
    caller is defined and [FunctionKey] is not the omitted key. *)
Definition emitsFunctionKey (cfg : EncoderConfig) (ent : Entry) : bool :=
  Defined (Caller ent) && negb (String.eqb (FunctionKey cfg) OmitKey).

End zapcore.

(** ** Package [go.uber.org/zap] *)

Module zap.

(** *** The heap

    A location holds the [atomic.Int32] behind an [AtomicLevel], the
    target of a [*SamplingConfig], or the backing array of a
    [[]string]. *)
Definition loc := positive.

(** [SamplingConfig]; its [Hook] field is never set by the package
    and is left out. *)
Record SamplingConfig := mkSampling {
  Initial : Z;
  Thereafter : Z
}.

Inductive cell :=
| Int32Cell (v : Z)
| SamplingCell (s : SamplingConfig)
| StringsCell (a : list string).

Abbreviation heap := (gmap loc cell).

(** Code that allocates or stores threads the heap. *)
Definition M (A : Type) : Type := heap -> A * heap.

Definition ret {A} (a : A) : M A := fun h => (a, h).

Definition bind {A B} (m : M A) (k : A -> M B) : M B :=
  fun h => let '(a, h') := m h in k a h'.

Declare Scope heap_scope.
Delimit Scope heap_scope with heap.
Notation "'let!' x ':=' m 'in' k" := (bind m (fun x => k))
  (at level 10, x name, m at level 100, k at level 200) : heap_scope.
Notation "m1 '>>' m2" := (bind m1 (fun _ => m2))
  (at level 100, m2 at level 200, right associativity) : heap_scope.

(** [new(T)] and composite literals behind a pointer: a location that
    is not in use yet. *)
Definition alloc (c : cell) : M loc :=
  fun h => let l := fresh (dom h) in (l, <[l := c]> h).

Definition store (l : loc) (c : cell) : M unit :=
  fun h => (tt, <[l := c]> h).

(** *** Atomic levels *)
Record AtomicLevel := mkAtomicLevel { l : loc }.

(** The conversions [int32(x)] of an [int8] and [int8(x)] of an
    [int32]. *)
Definition int32_of_int8 (x : Z) : Z := x.

Definition int8_of_int32 (x : Z) : Z := (x + 128) mod 256 - 128.

Definition NewAtomicLevel : M AtomicLevel :=
  (let! p := alloc (Int32Cell 0) in
   store p (Int32Cell (int32_of_int8 zapcore.InfoLevel)) >>
   ret (mkAtomicLevel p))%heap.

Definition SetLevel (lvl : AtomicLevel) (x : zapcore.Level) : M unit :=
  store (l lvl) (Int32Cell (int32_of_int8 x)).

Definition NewAtomicLevelAt (x : zapcore.Level) : M AtomicLevel :=
  (let! a := NewAtomicLevel in
   SetLevel a x >>
   ret a)%heap.

(** [lvl.Level()]; [None] if the pointer dangles, which no program
    state built by the functions above exhibits. *)
Definition Level (lvl : AtomicLevel) (h : heap) : option zapcore.Level :=
  match h !! l lvl with
  | Some (Int32Cell v) => Some (int8_of_int32 v)
  | _ => None
  end.

(** *** Slices of strings *)
Record slice := mkSlice {
  array : loc;
  len : nat;
  cap : nat
}.

(** The literal [[]string{...}]. *)
Definition sliceLiteral (a : list string) : M slice :=
  (let! p := alloc (StringsCell a) in
   ret (mkSlice p (length a) (length a)))%heap.

Definition readSlice (s : slice) (h : heap) : option (list string) :=
  match h !! array s with
  | Some (StringsCell a) => Some (take (len s) a)
  | _ => None
  end.

Definition readSampling (p : option loc) (h : heap)
  : option (option SamplingConfig) :=
  match p with
  | None => Some None
  | Some q =>
      match h !! q with
      | Some (SamplingCell s) => Some (Some s)
      | _ => None
      end
  end.

(** *** Configurations

    [InitialFields] is a map; [None] is the [nil] map. *)
Record Config := mkConfig {
  ConfigLevel : AtomicLevel;
  Development : bool;
  DisableCaller : bool;
  DisableStacktrace : bool;
  Sampling : option loc;
  Encoding : string;
  EncoderConfig : zapcore.EncoderConfig;
  OutputPaths : slice;
  ErrorOutputPaths : slice;
  InitialFields : option loc
}.

(** The locations a configuration points to. *)
Definition locations (c : Config) : gset loc :=
  {[ l (ConfigLevel c) ]} ∪
  (match Sampling c with Some q => {[ q ]} | None => ∅ end) ∪
  {[ array (OutputPaths c) ]} ∪ {[ array (ErrorOutputPaths c) ]} ∪
  (match InitialFields c with Some q => {[ q ]} | None => ∅ end).

(** A configuration with every pointer replaced by what it points to:
    this is what value equality of two configurations compares. *)
Record ConfigValue := mkConfigValue {
  vLevel : zapcore.Level;
  vDevelopment : bool;
  vDisableCaller : bool;
  vDisableStacktrace : bool;
  vSampling : option SamplingConfig;
  vEncoding : string;
  vEncoderConfig : zapcore.EncoderConfig;
  vOutputPaths : list string;
  vErrorOutputPaths : list string;
  vInitialFields : option loc
}.

Definition valueOf (c : Config) (h : heap) : option ConfigValue :=
  match Level (ConfigLevel c) h, readSampling (Sampling c) h,
        readSlice (OutputPaths c) h, readSlice (ErrorOutputPaths c) h with
  | Some lv, Some sa, Some out, Some err =>
      Some (mkConfigValue lv (Development c) (DisableCaller c)
              (DisableStacktrace c) sa (Encoding c) (EncoderConfig c)
              out err (InitialFields c))
  | _, _, _, _ => None
  end.

End zap.

(** ** Package [zapcloudlogging] *)

Import (notations) zap.

(** *** encoder.go *)

(** Indexing a Go map of strings: the zero value for a missing key. *)
Definition index (m : gmap Z string) (k : Z) : string :=
  default EmptyString (m !! k).

Definition logLevelSeverity : gmap Z string :=
  list_to_map
    [ (zapcore.DebugLevel, "DEBUG"%string);
      (zapcore.InfoLevel, "INFO"%string);
      (zapcore.WarnLevel, "WARNING"%string);
      (zapcore.ErrorLevel, "ERROR"%string);
      (zapcore.DPanicLevel, "CRITICAL"%string);
      (zapcore.PanicLevel, "ALERT"%string);
      (zapcore.FatalLevel, "EMERGENCY"%string) ].

Definition severityEncoder : zapcore.LevelEncoder := fun l enc =>
  zapcore.AppendString (index logLevelSeverity l) enc.

Record sourceLocation := mkSourceLocation {
  File : string;
  Line : Z;
  Function : string
}.

Definition sourceLocation_MarshalLogObject (l : sourceLocation)
  : zapcore.ObjectMarshaler := fun enc =>
  let enc := zapcore.AddString "file" (File l) enc in
  let enc := zapcore.AddString "line" (strconv.Itoa (Line l)) enc in
  let enc := zapcore.AddString "function" (Function l) enc in
  (enc, None).

Definition sourceLocationEncoder : zapcore.CallerEncoder := fun caller enc =>
  if zapcore.isArrayEncoder enc then
    fst (zapcore.AppendObject
           (sourceLocation_MarshalLogObject
              {| File := zapcore.File caller;
                 Line := zapcore.Line caller;
                 Function := zapcore.Function caller |}) enc)
  else zapcore.AppendString (zapcore.TrimmedPath caller) enc.

Record timestamp := mkTimestamp {
  Seconds : Z;
  Nanos : Z
}.

Definition timestamp_MarshalLogObject (t : timestamp)
  : zapcore.ObjectMarshaler := fun enc =>
  let enc := zapcore.AddInt64 "seconds" (Seconds t) enc in
  let enc := zapcore.AddInt "nanos" (Nanos t) enc in
  (enc, None).

Definition timestampEncoder : zapcore.TimeEncoder := fun t enc =>
  if zapcore.isArrayEncoder enc then
    fst (zapcore.AppendObject
           (timestamp_MarshalLogObject
              {| Seconds := time.Unix t;
                 Nanos := time.Nanosecond t |}) enc)
  else zapcore.RFC3339NanoTimeEncoder t enc.

Definition encoderConfig : zapcore.EncoderConfig :=
  {| zapcore.MessageKey := "message";
     zapcore.LevelKey := "severity";
     zapcore.TimeKey := "timestamp";
     zapcore.NameKey := "logger";
     zapcore.CallerKey := "logging.googleapis.com/sourceLocation";
     zapcore.FunctionKey := zapcore.OmitKey;
     zapcore.StacktraceKey := "stacktrace";
     zapcore.SkipLineEnding := false;
     zapcore.LineEnding := zapcore.DefaultLineEnding;
     zapcore.EncodeLevel := Some severityEncoder;
     zapcore.EncodeTime := Some timestampEncoder;
     zapcore.EncodeDuration := Some zapcore.MillisDurationEncoder;
     zapcore.EncodeCaller := Some sourceLocationEncoder;
     zapcore.EncodeName := None;
     zapcore.ConsoleSeparator := EmptyString |}.

Definition NewProductionEncoderConfig : zapcore.EncoderConfig := encoderConfig.

Definition NewDevelopmentEncoderConfig : zapcore.EncoderConfig := encoderConfig.

(** *** config.go *)

Definition NewProductionConfig : zap.M zap.Config :=
  (let! level := zap.NewAtomicLevelAt zapcore.InfoLevel in
   let! sampling :=
     zap.alloc (zap.SamplingCell
                  {| zap.Initial := 100; zap.Thereafter := 100 |}) in
   let! outputPaths := zap.sliceLiteral ["stderr"%string] in
   let! errorOutputPaths := zap.sliceLiteral ["stderr"%string] in
   zap.ret
     {| zap.ConfigLevel := level;
        zap.Development := false;
        zap.DisableCaller := false;
        zap.DisableStacktrace := false;
        zap.Sampling := Some sampling;
        zap.Encoding := "json";
        zap.EncoderConfig := NewProductionEncoderConfig;
        zap.OutputPaths := outputPaths;
        zap.ErrorOutputPaths := errorOutputPaths;
        zap.InitialFields := None |})%heap.

Definition NewDevelopmentConfig : zap.M zap.Config :=
  (let! level := zap.NewAtomicLevelAt zapcore.DebugLevel in
   let! sampling :=
     zap.alloc (zap.SamplingCell
                  {| zap.Initial := 100; zap.Thereafter := 100 |}) in
   let! outputPaths := zap.sliceLiteral ["stderr"%string] in
   let! errorOutputPaths := zap.sliceLiteral ["stderr"%string] in
   zap.ret
     {| zap.ConfigLevel := level;
        zap.Development := true;
        zap.DisableCaller := false;
        zap.DisableStacktrace := false;
        zap.Sampling := Some sampling;
        zap.Encoding := "json";
        zap.EncoderConfig := NewDevelopmentEncoderConfig;
        zap.OutputPaths := outputPaths;
        zap.ErrorOutputPaths := errorOutputPaths;
        zap.InitialFields := None |})%heap.

(** The two configuration builders, by the mode they are for. *)
Definition builder (development : bool) : zap.M zap.Config :=
  if development then NewDevelopmentConfig else NewProductionConfig.

(** The value expected of the builder for a mode. *)
Definition builtValue (development : bool) : zap.ConfigValue :=
  {| zap.vLevel := if development then zapcore.DebugLevel else zapcore.InfoLevel;
     zap.vDevelopment := development;
     zap.vDisableCaller := false;
     zap.vDisableStacktrace := false;
     zap.vSampling := Some (zap.mkSampling 100 100);
     zap.vEncoding := "json";
     zap.vEncoderConfig := encoderConfig;
     zap.vOutputPaths := ["stderr"%string];
     zap.vErrorOutputPaths := ["stderr"%string];
     zap.vInitialFields := None |}.

(** The key bindings of the Cloud Logging layout. *)
Definition cloudLoggingKeys (cfg : zapcore.EncoderConfig) : Prop :=
  zapcore.MessageKey cfg = "message"%string /\
  zapcore.LevelKey cfg = "severity"%string /\
  zapcore.TimeKey cfg = "timestamp"%string /\
  zapcore.NameKey cfg = "logger"%string /\
  zapcore.CallerKey cfg = "logging.googleapis.com/sourceLocation"%string /\
  zapcore.StacktraceKey cfg = "stacktrace"%string /\
  zapcore.FunctionKey cfg = zapcore.OmitKey.

(** How often the byte [c] occurs in [s]. *)
Fixpoint countByte (c : ascii) (s : string) : nat :=
  match s with
  | EmptyString => O
  | String a s' => ((if Ascii.eqb a c then 1 else 0) + countByte c s')%nat
  end.

(** * Properties *)

(** ** The collaborators *)

Example Itoa_42 : strconv.Itoa 42 = "42"%string.
Proof. reflexivity. Qed.

Example Itoa_negative : strconv.Itoa (-7) = "-7"%string.
Proof. reflexivity. Qed.

(** What [Itoa] prints reads back as the number it was given. *)
Lemma Itoa_reads_back (i : Z) :
  Z.of_int <$> NilZero.int_of_string (strconv.Itoa i) = Some i.
Proof.
  unfold strconv.Itoa.
  rewrite NilZero.isi.
  - simpl. f_equal. apply DecimalZ.of_to.
  - destruct i as [|p|p]; simpl; try discriminate.
    intros [= H]. now apply DecimalPos.Unsigned.to_uint_nonnil in H.
  - destruct i as [|p|p]; simpl; try discriminate.
    intros [= H]. now apply DecimalPos.Unsigned.to_uint_nonnil in H.
Qed.

Section Instants.

Variable t : time.Time.

Lemma Nanosecond_range : 0 <= time.Nanosecond t < 1000000000.
Proof. unfold time.Nanosecond. apply Z.mod_pos_bound. lia. Qed.

Lemma Unix_Nanosecond :
  time.Unix t * 1000000000 + time.Nanosecond t = time.instant t.
Proof.
  unfold time.Unix, time.Nanosecond.
  pose proof (Z.div_mod (time.instant t) 1000000000). lia.
Qed.

Lemma Unix_whole_seconds :
  time.Unix t * 1000000000 <= time.instant t
  < (time.Unix t + 1) * 1000000000.
Proof. pose proof Nanosecond_range. pose proof Unix_Nanosecond. lia. Qed.

End Instants.

(** [time.Unix(sec, nsec)] with a nanosecond count in range reads back
    as [sec] and [nsec]. *)
Lemma UnixUTC_reads_back (sec nsec : Z) :
  0 <= nsec < 1000000000 ->
  time.Unix (time.UnixUTC sec nsec) = sec /\
  time.Nanosecond (time.UnixUTC sec nsec) = nsec.
Proof.
  intros Hn. unfold time.Unix, time.Nanosecond, time.UnixUTC. simpl.
  split.
  - symmetry. apply (Z.div_unique _ _ _ nsec); lia.
  - symmetry. apply (Z.mod_unique _ _ sec nsec); lia.
Qed.

Example Format_sample :
  time.Format (time.UnixUTC 1700000000 123000000) time.RFC3339Nano
  = "2023-11-14T22:13:20.123Z"%string.
Proof. vm_compute. reflexivity. Qed.

(** The ends of the int64 range of Unix seconds: the calendar wraps
    around, so the least time is printed one second after the
    greatest. *)
Example Format_greatest :
  time.Format (time.UnixUTC 9223372036854775807 0) time.RFC3339Nano
  = "292277026596-12-04T15:30:07Z"%string.
Proof. vm_compute. reflexivity. Qed.

Example Format_least :
  time.Format (time.UnixUTC (-9223372036854775808) 0) time.RFC3339Nano
  = "292277026596-12-04T15:30:08Z"%string.
Proof. vm_compute. reflexivity. Qed.

Example Format_year_one :
  time.Format (time.UnixUTC (-62135596800) 0) time.RFC3339Nano
  = "0001-01-01T00:00:00Z"%string.
Proof. vm_compute. reflexivity. Qed.

Example Format_absolute_zero :
  time.Format (time.UnixUTC (- time.unixToAbsolute) 0) time.RFC3339Nano
  = "-292277022400-03-01T00:00:00Z"%string.
Proof. vm_compute. reflexivity. Qed.

Example Format_offset :
  time.Format (time.mkTime (-1) (-19800)) time.RFC3339Nano
  = "1969-12-31T18:29:59.999999999-05:30"%string.
Proof. vm_compute. reflexivity. Qed.

(** The trimmed path keeps the last directory and the file name. *)
Example TrimmedPath_deep :
  zapcore.TrimmedPath
    (zapcore.mkCaller true 0 "/home/dev/src/pkg/sub/b.go" 42 "main.Foo")
  = "sub/b.go:42"%string.
Proof. vm_compute. reflexivity. Qed.

Example TrimmedPath_short :
  zapcore.TrimmedPath (zapcore.mkCaller true 0 "a/b.go" 42 "main.Foo")
  = "a/b.go:42"%string.
Proof. vm_compute. reflexivity. Qed.

Example TrimmedPath_undefined :
  zapcore.TrimmedPath (zapcore.mkCaller false 0 "a/b.go" 42 "main.Foo")
  = "undefined"%string.
Proof. reflexivity. Qed.

(** ** Severity *)

(** The keys of the severity table are the seven named levels. *)
Lemma logLevelSeverity_dom : dom logLevelSeverity = list_to_set zapcore.recognized.
Proof. unfold logLevelSeverity. rewrite dom_list_to_map_L. reflexivity. Qed.

Lemma logLevelSeverity_missing (l : Z) :
  l ∉ zapcore.recognized -> logLevelSeverity !! l = None.
Proof.
  intros Hl. apply not_elem_of_dom.
  rewrite logLevelSeverity_dom. now rewrite elem_of_list_to_set.
Qed.

(** C1. For each of the seven levels zap names, [severityEncoder]
    appends exactly the documented Cloud Logging severity: Debug gives
    DEBUG, Info gives INFO, Warn gives WARNING, Error gives ERROR,
    DPanic gives CRITICAL, Panic gives ALERT and Fatal gives
    EMERGENCY. *)
Theorem severityEncoder_recognized (enc : zapcore.PrimitiveArrayEncoder) :
  severityEncoder zapcore.DebugLevel enc = zapcore.AppendString "DEBUG" enc /\
  severityEncoder zapcore.InfoLevel enc = zapcore.AppendString "INFO" enc /\
  severityEncoder zapcore.WarnLevel enc = zapcore.AppendString "WARNING" enc /\
  severityEncoder zapcore.ErrorLevel enc = zapcore.AppendString "ERROR" enc /\
  severityEncoder zapcore.DPanicLevel enc = zapcore.AppendString "CRITICAL" enc /\
  severityEncoder zapcore.PanicLevel enc = zapcore.AppendString "ALERT" enc /\
  severityEncoder zapcore.FatalLevel enc = zapcore.AppendString "EMERGENCY" enc.
Proof. repeat split; reflexivity. Qed.

(** Against C2 as stated: the level [6], an [int8] that is none of the
    seven, makes [severityEncoder] append the empty string, so no
    non-empty fallback is emitted for it. *)
Lemma severityEncoder_no_fallback :
  zapcore.isInt8 6 /\ (6 ∉ zapcore.recognized) /\
  ~ (exists s : string,
        s <> EmptyString /\
        severityEncoder 6 (zapcore.mkEncoder false false [])
        = zapcore.AppendString s (zapcore.mkEncoder false false [])).
Proof.
  split; [unfold zapcore.isInt8; lia|].
  split.
  - unfold zapcore.recognized. rewrite !elem_of_cons, elem_of_nil.
    vm_compute. intuition discriminate.
  - intros (s & Hs & Heq). apply Hs.
    vm_compute in Heq. now inversion Heq.
Qed.

(** C2, as the code has it. For every level outside the seven named
    ones, [severityEncoder] appends the empty string: the table has no
    entry for it and indexing a Go map yields the zero value. *)
Theorem severityEncoder_unrecognized
    (l : zapcore.Level) (enc : zapcore.PrimitiveArrayEncoder) :
  l ∉ zapcore.recognized ->
  severityEncoder l enc = zapcore.AppendString EmptyString enc.
Proof.
  intros Hl. unfold severityEncoder, index.
  now rewrite (logLevelSeverity_missing l Hl).
Qed.

Lemma severityEncoder_unrecognized_witness :
  (6 ∉ zapcore.recognized) /\
  severityEncoder 6 (zapcore.mkEncoder true true [])
  = zapcore.AppendString EmptyString (zapcore.mkEncoder true true []).
Proof.
  assert (H : 6 ∉ zapcore.recognized).
  { unfold zapcore.recognized. rewrite !elem_of_cons, elem_of_nil.
    vm_compute. intuition discriminate. }
  split; [exact H|].
  apply (severityEncoder_unrecognized 6 _ H).
Defined.

(** ** Source location *)

(** C3. For every caller, [sourceLocationEncoder] appends, on an
    encoder that is an [ArrayEncoder], one object with the string
    members "file" (the file path), "line" (the line number in decimal)
    and "function" (the function name), in this order; on any other
    encoder it appends the single string [caller.TrimmedPath()]. *)
Theorem sourceLocationEncoder_shape
    (caller : zapcore.EntryCaller) (enc : zapcore.PrimitiveArrayEncoder) :
  sourceLocationEncoder caller enc =
  if zapcore.isArrayEncoder enc then
    zapcore.append
      (zapcore.ObjectElement
         [ ("file"%string, zapcore.StringValue (zapcore.File caller));
           ("line"%string,
            zapcore.StringValue (strconv.Itoa (zapcore.Line caller)));
           ("function"%string, zapcore.StringValue (zapcore.Function caller)) ])
      enc
  else
    zapcore.append (zapcore.StringElement (zapcore.TrimmedPath caller)) enc.
Proof.
  unfold sourceLocationEncoder.
  destruct (zapcore.isArrayEncoder enc); reflexivity.
Qed.

Example sourceLocationEncoder_nested :
  zapcore.elems
    (sourceLocationEncoder (zapcore.mkCaller true 0 "a/b.go" 42 "main.Foo")
       (zapcore.mkEncoder true true []))
  = [ zapcore.ObjectElement
        [ ("file"%string, zapcore.StringValue "a/b.go");
          ("line"%string, zapcore.StringValue "42");
          ("function"%string, zapcore.StringValue "main.Foo") ] ].
Proof. reflexivity. Qed.

Example sourceLocationEncoder_flat :
  zapcore.elems
    (sourceLocationEncoder (zapcore.mkCaller true 0 "a/b.go" 42 "main.Foo")
       (zapcore.mkEncoder false false []))
  = [ zapcore.StringElement "a/b.go:42" ].
Proof. vm_compute. reflexivity. Qed.

(** ** Timestamp *)

(** On an [ArrayEncoder] the timestamp goes out as an object. *)
Lemma timestampEncoder_array
    (t : time.Time) (enc : zapcore.PrimitiveArrayEncoder) :
  zapcore.isArrayEncoder enc = true ->
  timestampEncoder t enc =
  zapcore.append
    (zapcore.ObjectElement
       [ ("seconds"%string, zapcore.Int64Value (time.Unix t));
         ("nanos"%string, zapcore.IntValue (time.Nanosecond t)) ])
    enc.
Proof. intros Harr. unfold timestampEncoder. now rewrite Harr. Qed.

(** C4. For every time [t], [timestampEncoder] appends, on an encoder
    that is an [ArrayEncoder], one object with the members "seconds"
    (the Unix seconds of [t], an int64) and "nanos" (the nanosecond
    within the second); on any other encoder it appends the string
    [t.Format(time.RFC3339Nano)]. *)
Theorem timestampEncoder_shape
    (t : time.Time) (enc : zapcore.PrimitiveArrayEncoder) :
  timestampEncoder t enc =
  if zapcore.isArrayEncoder enc then
    zapcore.append
      (zapcore.ObjectElement
         [ ("seconds"%string, zapcore.Int64Value (time.Unix t));
           ("nanos"%string, zapcore.IntValue (time.Nanosecond t)) ])
      enc
  else
    zapcore.append
      (zapcore.StringElement (time.Format t time.RFC3339Nano)) enc.
Proof.
  destruct (zapcore.isArrayEncoder enc) eqn:Harr.
  - now apply timestampEncoder_array.
  - unfold timestampEncoder, zapcore.RFC3339NanoTimeEncoder. rewrite Harr.
    destruct (zapcore.isAppendTimeEncoder enc); reflexivity.
Qed.

Example timestampEncoder_nested :
  zapcore.elems
    (timestampEncoder (time.UnixUTC 1700000000 123000000)
       (zapcore.mkEncoder true true []))
  = [ zapcore.ObjectElement
        [ ("seconds"%string, zapcore.Int64Value 1700000000);
          ("nanos"%string, zapcore.IntValue 123000000) ] ].
Proof. reflexivity. Qed.

Example timestampEncoder_flat :
  zapcore.elems
    (timestampEncoder (time.UnixUTC 1700000000 123000000)
       (zapcore.mkEncoder false false []))
  = [ zapcore.StringElement "2023-11-14T22:13:20.123Z" ].
Proof. vm_compute. reflexivity. Qed.

(** C9. For every time [t], the object that [timestampEncoder] appends
    on an [ArrayEncoder] has a "nanos" member in [0, 1e9) and a
    "seconds" member that is the number of whole seconds between the
    Unix epoch and [t]; the two together give back [t] to the
    nanosecond. *)
Theorem timestampEncoder_range
    (t : time.Time) (enc : zapcore.PrimitiveArrayEncoder) :
  zapcore.isArrayEncoder enc = true ->
  exists seconds nanos : Z,
    timestampEncoder t enc =
    zapcore.append
      (zapcore.ObjectElement
         [ ("seconds"%string, zapcore.Int64Value seconds);
           ("nanos"%string, zapcore.IntValue nanos) ]) enc /\
    0 <= nanos < 1000000000 /\
    seconds * 1000000000 <= time.instant t < (seconds + 1) * 1000000000 /\
    seconds * 1000000000 + nanos = time.instant t.
Proof.
  intros Harr.
  exists (time.Unix t), (time.Nanosecond t).
  split; [now apply timestampEncoder_array|].
  split; [apply Nanosecond_range|].
  split; [apply Unix_whole_seconds|apply Unix_Nanosecond].
Qed.

Lemma timestampEncoder_range_witness :
  exists seconds nanos : Z,
    timestampEncoder (time.mkTime (-500000000) 0)
      (zapcore.mkEncoder true false []) =
    zapcore.append
      (zapcore.ObjectElement
         [ ("seconds"%string, zapcore.Int64Value seconds);
           ("nanos"%string, zapcore.IntValue nanos) ])
      (zapcore.mkEncoder true false []) /\
    0 <= nanos < 1000000000 /\
    seconds * 1000000000 <= -500000000 < (seconds + 1) * 1000000000 /\
    seconds * 1000000000 + nanos = -500000000.
Proof.
  apply (timestampEncoder_range (time.mkTime (-500000000) 0)
           (zapcore.mkEncoder true false [])).
  reflexivity.
Defined.

(** A time half a second before the epoch: second [-1], nanosecond
    [500000000]. *)
Example timestampEncoder_before_epoch :
  zapcore.elems
    (timestampEncoder (time.mkTime (-500000000) 0)
       (zapcore.mkEncoder true false []))
  = [ zapcore.ObjectElement
        [ ("seconds"%string, zapcore.Int64Value (-1));
          ("nanos"%string, zapcore.IntValue 500000000) ] ].
Proof. reflexivity. Qed.

(** ** Marshalling errors *)

(** C10. [MarshalLogObject] of [sourceLocation] and of [timestamp]
    returns the nil error whatever the value and the encoder, so the
    [AppendObject] calls of [sourceLocationEncoder] and
    [timestampEncoder] report no error either. *)
Theorem MarshalLogObject_nil_error :
  (forall (l : sourceLocation) (enc : zapcore.ObjectEncoder),
      snd (sourceLocation_MarshalLogObject l enc) = None) /\
  (forall (t : timestamp) (enc : zapcore.ObjectEncoder),
      snd (timestamp_MarshalLogObject t enc) = None) /\
  (forall (l : sourceLocation) (enc : zapcore.PrimitiveArrayEncoder),
      snd (zapcore.AppendObject (sourceLocation_MarshalLogObject l) enc) = None) /\
  (forall (t : timestamp) (enc : zapcore.PrimitiveArrayEncoder),
      snd (zapcore.AppendObject (timestamp_MarshalLogObject t) enc) = None).
Proof. repeat split. Qed.

(** ** The heap *)

Section Heap.

Variable h : gmap zap.loc zap.cell.

Lemma alloc_fresh (c : zap.cell) : h !! fst (zap.alloc c h) = None.
Proof. simpl. apply not_elem_of_dom, is_fresh. Qed.

Lemma alloc_heap (c : zap.cell) :
  snd (zap.alloc c h) = <[fst (zap.alloc c h) := c]> h.
Proof. reflexivity. Qed.

(** What [NewAtomicLevelAt] leaves behind: one new cell, holding the
    level. *)
Lemma NewAtomicLevelAt_run (x : zapcore.Level) :
  exists p : zap.loc,
    h !! p = None /\
    zap.NewAtomicLevelAt x h
    = (zap.mkAtomicLevel p, <[p := zap.Int32Cell x]> h).
Proof.
  exists (fresh (dom h)). split.
  - apply not_elem_of_dom, is_fresh.
  - unfold zap.NewAtomicLevelAt, zap.NewAtomicLevel, zap.SetLevel,
      zap.bind, zap.ret, zap.store, zap.alloc, zap.int32_of_int8.
    simpl. now rewrite !insert_insert_eq.
Qed.

End Heap.

(** A run of either builder allocates four cells that were free and
    touches nothing else. *)
Lemma builder_run (development : bool) (h : gmap zap.loc zap.cell) :
  exists p1 p2 p3 p4 : zap.loc,
    (h !! p1 = None /\ h !! p2 = None /\ h !! p3 = None /\ h !! p4 = None) /\
    (p1 <> p2 /\ p1 <> p3 /\ p1 <> p4 /\ p2 <> p3 /\ p2 <> p4 /\ p3 <> p4) /\
    builder development h =
    ( {| zap.ConfigLevel := zap.mkAtomicLevel p1;
         zap.Development := development;
         zap.DisableCaller := false;
         zap.DisableStacktrace := false;
         zap.Sampling := Some p2;
         zap.Encoding := "json";
         zap.EncoderConfig := encoderConfig;
         zap.OutputPaths := zap.mkSlice p3 1 1;
         zap.ErrorOutputPaths := zap.mkSlice p4 1 1;
         zap.InitialFields := None |},
      <[p4 := zap.StringsCell ["stderr"%string]]>
        (<[p3 := zap.StringsCell ["stderr"%string]]>
           (<[p2 := zap.SamplingCell (zap.mkSampling 100 100)]>
              (<[p1 := zap.Int32Cell
                         (if development then zapcore.DebugLevel
                          else zapcore.InfoLevel)]> h))) ).
Proof.
  set (x := if development then zapcore.DebugLevel else zapcore.InfoLevel).
  destruct (NewAtomicLevelAt_run h x) as (p1 & Hp1 & Hrun).
  set (h1 := <[p1 := zap.Int32Cell x]> h) in *.
  set (c2 := zap.SamplingCell (zap.mkSampling 100 100)).
  set (c3 := zap.StringsCell ["stderr"%string]).
  pose proof (alloc_fresh h1 c2) as Hp2.
  set (p2 := fst (zap.alloc c2 h1)) in *.
  set (h2 := <[p2 := c2]> h1).
  pose proof (alloc_fresh h2 c3) as Hp3.
  set (p3 := fst (zap.alloc c3 h2)) in *.
  set (h3 := <[p3 := c3]> h2).
  pose proof (alloc_fresh h3 c3) as Hp4.
  set (p4 := fst (zap.alloc c3 h3)) in *.
  exists p1, p2, p3, p4.
  assert (Hbuild : builder development h =
    ( {| zap.ConfigLevel := zap.mkAtomicLevel p1;
         zap.Development := development;
         zap.DisableCaller := false;
         zap.DisableStacktrace := false;
         zap.Sampling := Some p2;
         zap.Encoding := "json";
         zap.EncoderConfig := encoderConfig;
         zap.OutputPaths := zap.mkSlice p3 1 1;
         zap.ErrorOutputPaths := zap.mkSlice p4 1 1;
         zap.InitialFields := None |},
      <[p4 := c3]> h3 )).
  { unfold builder, NewDevelopmentConfig, NewProductionConfig.
    subst x. destruct development;
      unfold zap.bind at 1; rewrite Hrun; reflexivity. }
  clearbody p2 p3 p4. subst h3 h2 h1.
  repeat setoid_rewrite lookup_insert_None in Hp2.
  repeat setoid_rewrite lookup_insert_None in Hp3.
  repeat setoid_rewrite lookup_insert_None in Hp4.
  destruct Hp2 as [Hh2 H12].
  destruct Hp3 as [[Hh3 H13] H23].
  destruct Hp4 as [[[Hh4 H14] H24] H34].
  repeat split; assumption.
Qed.

(** The locations of a configuration, one by one. *)
Lemma elem_of_locations (c : zap.Config) (p : zap.loc) :
  p ∈ zap.locations c <->
  p = zap.l (zap.ConfigLevel c) \/ zap.Sampling c = Some p \/
  p = zap.array (zap.OutputPaths c) \/
  p = zap.array (zap.ErrorOutputPaths c) \/ zap.InitialFields c = Some p.
Proof.
  unfold zap.locations.
  rewrite !elem_of_union, !elem_of_singleton.
  destruct (zap.Sampling c) as [q|], (zap.InitialFields c) as [q'|];
    rewrite ?elem_of_singleton, ?elem_of_empty;
    intuition (try congruence; try discriminate).
Qed.

(** The value of a configuration depends only on the cells it points
    to. *)
Lemma valueOf_agree (c : zap.Config) (h h' : gmap zap.loc zap.cell) :
  (forall p, p ∈ zap.locations c -> h' !! p = h !! p) ->
  zap.valueOf c h' = zap.valueOf c h.
Proof.
  intros Hagree.
  unfold zap.valueOf, zap.Level, zap.readSampling, zap.readSlice.
  rewrite !(Hagree (zap.l _)), !(Hagree (zap.array _))
    by (apply elem_of_locations; tauto).
  destruct (zap.Sampling c) as [q|] eqn:Hs; [|reflexivity].
  rewrite (Hagree q) by (apply elem_of_locations; tauto).
  reflexivity.
Qed.

Lemma builder_value (development : bool) (h : gmap zap.loc zap.cell) :
  zap.valueOf (fst (builder development h)) (snd (builder development h))
  = Some (builtValue development).
Proof.
  destruct (builder_run development h)
    as (p1 & p2 & p3 & p4 & _ & Hne & ->).
  destruct Hne as (H12 & H13 & H14 & H23 & H24 & H34).
  unfold zap.valueOf, zap.Level, zap.readSampling, zap.readSlice. simpl.
  simplify_map_eq.
  destruct development; reflexivity.
Qed.

(** ** Configurations *)

(** C5. [NewProductionConfig] returns, in every program state, a
    configuration whose level reads Info, whose development flag is
    off, whose sampling is 100 initially and 100 thereafter, whose
    encoding is json and whose output paths and error output paths are
    both the one-element list of stderr. *)
Theorem NewProductionConfig_fields (h : gmap zap.loc zap.cell) :
  let '(c, h') := NewProductionConfig h in
  zap.Level (zap.ConfigLevel c) h' = Some zapcore.InfoLevel /\
  zap.Development c = false /\
  zap.readSampling (zap.Sampling c) h' = Some (Some (zap.mkSampling 100 100)) /\
  zap.Encoding c = "json"%string /\
  zap.readSlice (zap.OutputPaths c) h' = Some ["stderr"%string] /\
  zap.readSlice (zap.ErrorOutputPaths c) h' = Some ["stderr"%string].
Proof.
  destruct (builder_run false h) as (p1 & p2 & p3 & p4 & _ & Hne & Hrun).
  destruct Hne as (H12 & H13 & H14 & H23 & H24 & H34).
  change (builder false h) with (NewProductionConfig h) in Hrun.
  rewrite Hrun.
  unfold zap.Level, zap.readSampling, zap.readSlice. simpl.
  simplify_map_eq. repeat split; reflexivity.
Qed.

(** C6. The configuration of [NewDevelopmentConfig] is that of
    [NewProductionConfig] with the level Debug in place of Info and the
    development flag on in place of off; every other field, the
    sampling, the encoding, the output paths and the whole encoder
    configuration, is the same, and [NewDevelopmentEncoderConfig] equals
    [NewProductionEncoderConfig]. *)
Theorem NewDevelopmentConfig_differs (h h' : gmap zap.loc zap.cell) :
  exists vp vd : zap.ConfigValue,
    zap.valueOf (fst (NewProductionConfig h)) (snd (NewProductionConfig h))
    = Some vp /\
    zap.valueOf (fst (NewDevelopmentConfig h')) (snd (NewDevelopmentConfig h'))
    = Some vd /\
    zap.vLevel vp = zapcore.InfoLevel /\ zap.vLevel vd = zapcore.DebugLevel /\
    zap.vDevelopment vp = false /\ zap.vDevelopment vd = true /\
    vd = {| zap.vLevel := zapcore.DebugLevel;
            zap.vDevelopment := true;
            zap.vDisableCaller := zap.vDisableCaller vp;
            zap.vDisableStacktrace := zap.vDisableStacktrace vp;
            zap.vSampling := zap.vSampling vp;
            zap.vEncoding := zap.vEncoding vp;
            zap.vEncoderConfig := zap.vEncoderConfig vp;
            zap.vOutputPaths := zap.vOutputPaths vp;
            zap.vErrorOutputPaths := zap.vErrorOutputPaths vp;
            zap.vInitialFields := zap.vInitialFields vp |} /\
    NewDevelopmentEncoderConfig = NewProductionEncoderConfig.
Proof.
  exists (builtValue false), (builtValue true).
  split; [exact (builder_value false h)|].
  split; [exact (builder_value true h')|].
  repeat split.
Qed.

(** C7. The encoder configuration of both modes, also as it sits in
    the configurations the builders return, binds the message to
    "message", the level to "severity", the time to "timestamp", the
    logger name to "logger", the caller to
    "logging.googleapis.com/sourceLocation" and the stack trace to
    "stacktrace"; the function key is the omitted key, so that no entry
    gets a member for the function name. *)
Theorem encoderConfig_keys :
  cloudLoggingKeys NewProductionEncoderConfig /\
  cloudLoggingKeys NewDevelopmentEncoderConfig /\
  (forall (development : bool) (h : gmap zap.loc zap.cell),
      cloudLoggingKeys (zap.EncoderConfig (fst (builder development h)))) /\
  (forall ent : zapcore.Entry,
      zapcore.emitsFunctionKey NewProductionEncoderConfig ent = false /\
      zapcore.emitsFunctionKey NewDevelopmentEncoderConfig ent = false).
Proof.
  assert (Hkeys : cloudLoggingKeys encoderConfig) by (repeat split).
  split; [exact Hkeys|]. split; [exact Hkeys|]. split.
  - intros development h.
    destruct (builder_run development h) as (p1 & p2 & p3 & p4 & _ & _ & ->).
    exact Hkeys.
  - intros ent. unfold zapcore.emitsFunctionKey. simpl.
    now rewrite andb_false_r.
Qed.

(** C8. Either builder is deterministic and free of side effects. Run
    in any state, it yields the same value; it leaves every cell that
    existed as it was; the cells behind the configuration it returns are
    new, so two configurations built one after the other share none;
    the second run leaves the first configuration as it was; and
    whatever is stored later through the pointers of one configuration,
    the other one keeps its value. *)
Theorem builders_pure
    (development development' : bool) (h : gmap zap.loc zap.cell) :
  let '(c1, h1) := builder development h in
  let '(c2, h2) := builder development' h1 in
  is_Some (zap.valueOf c1 h1) /\
  (forall h0 : gmap zap.loc zap.cell,
      zap.valueOf (fst (builder development h0)) (snd (builder development h0))
      = zap.valueOf c1 h1) /\
  h ⊆ h1 /\
  zap.locations c1 ## dom h /\
  zap.locations c1 ## zap.locations c2 /\
  zap.valueOf c1 h2 = zap.valueOf c1 h1 /\
  (forall h3 : gmap zap.loc zap.cell,
      (forall p, p ∉ zap.locations c1 -> h3 !! p = h2 !! p) ->
      zap.valueOf c2 h3 = zap.valueOf c2 h2) /\
  (forall h3 : gmap zap.loc zap.cell,
      (forall p, p ∉ zap.locations c2 -> h3 !! p = h2 !! p) ->
      zap.valueOf c1 h3 = zap.valueOf c1 h2).
Proof.
  pose proof (builder_value development h) as Hv1.
  destruct (builder_run development h)
    as (p1 & p2 & p3 & p4 & Hfree & Hne & Hrun).
  rewrite Hrun in Hv1. rewrite Hrun. simpl in Hv1.
  match goal with |- context [builder development' ?x] => set (h1 := x) in * end.
  destruct (builder_run development' h1)
    as (q1 & q2 & q3 & q4 & Hfree' & Hne' & ->).
  set (c1 := zap.mkConfig (zap.mkAtomicLevel p1) _ _ _ _ _ _ _ _ _) in *.
  set (c2 := zap.mkConfig (zap.mkAtomicLevel q1) _ _ _ _ _ _ _ _ _).
  match goal with |- context [zap.valueOf c1 ?x = zap.valueOf c1 h1] =>
    set (h2 := x) end.
  destruct Hfree as (F1 & F2 & F3 & F4).
  destruct Hfree' as (G1 & G2 & G3 & G4).
  assert (L1 : forall p, p ∈ zap.locations c1 ->
                 p = p1 \/ p = p2 \/ p = p3 \/ p = p4).
  { intros p Hp. apply elem_of_locations in Hp. simpl in Hp.
    intuition congruence. }
  assert (L2 : forall p, p ∈ zap.locations c2 ->
                 p = q1 \/ p = q2 \/ p = q3 \/ p = q4).
  { intros p Hp. apply elem_of_locations in Hp. simpl in Hp.
    intuition congruence. }
  assert (Hin : forall p, p ∈ zap.locations c1 -> is_Some (h1 !! p)).
  { intros p Hp. subst h1.
    destruct Hne as (H12 & H13 & H14 & H23 & H24 & H34).
    destruct (L1 p Hp) as [-> | [-> | [-> | ->]]]; simplify_map_eq; eauto. }
  assert (Hdisj : zap.locations c1 ## zap.locations c2).
  { apply elem_of_disjoint. intros p Hp1 Hp2.
    apply Hin in Hp1 as [v Hv].
    destruct (L2 p Hp2) as [-> | [-> | [-> | ->]]]; congruence. }
  assert (Hkeep : forall p, p ∈ zap.locations c1 -> h2 !! p = h1 !! p).
  { intros p Hp. apply Hin in Hp as [v Hv].
    subst h2. rewrite !lookup_insert_ne; [reflexivity|..];
      intros ->; congruence. }
  split; [rewrite Hv1; eauto|].
  split; [intros h0; rewrite builder_value; now rewrite Hv1|].
  split.
  { subst h1. destruct Hne as (H12 & H13 & H14 & H23 & H24 & H34).
    repeat (etrans; [|apply insert_subseteq; simplify_map_eq; done]).
    reflexivity. }
  split.
  { apply elem_of_disjoint. intros p Hp Hd.
    apply elem_of_dom in Hd as [v Hv].
    destruct (L1 p Hp) as [-> | [-> | [-> | ->]]]; congruence. }
  split; [exact Hdisj|].
  split; [apply valueOf_agree, Hkeep|].
  split.
  - intros h3 Hagree. apply valueOf_agree. intros p Hp.
    apply Hagree. intros Hp'. now apply (Hdisj p).
  - intros h3 Hagree. apply valueOf_agree. intros p Hp.
    apply Hagree. intros Hp'. now apply (Hdisj p).
Qed.

(** Raising the level of one configuration does not show in another
    one built by the same builder. *)
Example SetLevel_not_shared :
  let '(c1, h1) := NewProductionConfig ∅ in
  let '(c2, h2) := NewProductionConfig h1 in
  let '(_, h3) := zap.SetLevel (zap.ConfigLevel c1) zapcore.ErrorLevel h2 in
  zap.Level (zap.ConfigLevel c1) h3 = Some zapcore.ErrorLevel /\
  zap.Level (zap.ConfigLevel c2) h3 = Some zapcore.InfoLevel /\
  zap.Level (zap.ConfigLevel c2) h2 = Some zapcore.InfoLevel.
Proof. vm_compute. repeat split; reflexivity. Qed.

(** * Further properties of the encoders and the builders *)

(** ** Severity *)

Lemma append_inj (e1 e2 : zapcore.Element) (enc : zapcore.PrimitiveArrayEncoder) :
  zapcore.append e1 enc = zapcore.append e2 enc -> e1 = e2.
Proof.
  intros H. apply (f_equal zapcore.elems) in H. simpl in H.
  now apply app_inj_tail in H as [_ H].
Qed.

Lemma recognized_cases (l : Z) :
  l ∈ zapcore.recognized ->
  l = -1 \/ l = 0 \/ l = 1 \/ l = 2 \/ l = 3 \/ l = 4 \/ l = 5.
Proof.
  unfold zapcore.recognized. rewrite !elem_of_cons, elem_of_nil.
  unfold zapcore.DebugLevel, zapcore.InfoLevel, zapcore.WarnLevel,
    zapcore.ErrorLevel, zapcore.DPanicLevel, zapcore.PanicLevel,
    zapcore.FatalLevel.
  tauto.
Qed.

(** X1. Two named levels that [severityEncoder] renders alike are the
    same level: the seven severities are pairwise different. *)
Theorem severityEncoder_injective
    (l1 l2 : Z) (enc : zapcore.PrimitiveArrayEncoder) :
  l1 ∈ zapcore.recognized -> l2 ∈ zapcore.recognized ->
  severityEncoder l1 enc = severityEncoder l2 enc -> l1 = l2.
Proof.
  intros H1 H2 Heq.
  apply append_inj in Heq.
  apply recognized_cases in H1, H2.
  destruct H1 as [-> | [-> | [-> | [-> | [-> | [-> | ->]]]]]];
    destruct H2 as [-> | [-> | [-> | [-> | [-> | [-> | ->]]]]]];
    try reflexivity; vm_compute in Heq; discriminate.
Qed.

Lemma severityEncoder_injective_witness :
  (1 ∈ zapcore.recognized) /\
  severityEncoder 1 (zapcore.mkEncoder true true [])
  = severityEncoder 1 (zapcore.mkEncoder true true []) /\ 1 = 1.
Proof.
  assert (H : 1 ∈ zapcore.recognized).
  { unfold zapcore.recognized. rewrite !elem_of_cons. vm_compute. tauto. }
  split; [exact H|]. split; [reflexivity|].
  exact (severityEncoder_injective 1 1 (zapcore.mkEncoder true true [])
           H H eq_refl).
Defined.

(** X2. The severity that [severityEncoder] appends is the empty
    string exactly for the levels that are none of the seven named
    ones. *)
Theorem severityEncoder_empty_iff
    (l : Z) (enc : zapcore.PrimitiveArrayEncoder) :
  severityEncoder l enc = zapcore.AppendString EmptyString enc
  <-> l ∉ zapcore.recognized.
Proof.
  split.
  - intros Heq Hl. apply append_inj in Heq.
    apply recognized_cases in Hl.
    destruct Hl as [-> | [-> | [-> | [-> | [-> | [-> | ->]]]]]];
      vm_compute in Heq; discriminate.
  - intros Hl. unfold severityEncoder, index.
    now rewrite (logLevelSeverity_missing l Hl).
Qed.

(** ** One element per call *)

(** X3. Each field encoder of the package appends exactly one element
    to the encoder it is given, whatever its input and whatever kind
    of encoder it is: what was appended before stays in front and the
    kind of the encoder is untouched.  None of them is ever a
    no-op. *)
Theorem field_encoders_append_one (enc : zapcore.PrimitiveArrayEncoder) :
  (forall l : zapcore.Level,
      exists e, severityEncoder l enc = zapcore.append e enc) /\
  (forall caller : zapcore.EntryCaller,
      exists e, sourceLocationEncoder caller enc = zapcore.append e enc) /\
  (forall t : time.Time,
      exists e, timestampEncoder t enc = zapcore.append e enc).
Proof.
  split; [|split].
  - intros l. eexists. reflexivity.
  - intros caller. unfold sourceLocationEncoder.
    destruct (zapcore.isArrayEncoder enc); eexists; reflexivity.
  - intros t. unfold timestampEncoder, zapcore.RFC3339NanoTimeEncoder.
    destruct (zapcore.isArrayEncoder enc); [eexists; reflexivity|].
    destruct (zapcore.isAppendTimeEncoder enc); eexists; reflexivity.
Qed.

(** ** Source location: the object *)

Lemma Itoa_inj (a b : Z) : strconv.Itoa a = strconv.Itoa b -> a = b.
Proof.
  intros H. pose proof (Itoa_reads_back a) as Ha.
  rewrite H, Itoa_reads_back in Ha. now injection Ha.
Qed.

(** X4. On an [ArrayEncoder], two callers are encoded alike exactly
    when they agree on file, line and function: the object tells
    different locations apart, and neither the program counter nor the
    [Defined] flag of the caller shows in it. *)
Theorem sourceLocationEncoder_nested_iff
    (c1 c2 : zapcore.EntryCaller) (enc : zapcore.PrimitiveArrayEncoder) :
  zapcore.isArrayEncoder enc = true ->
  (sourceLocationEncoder c1 enc = sourceLocationEncoder c2 enc
   <-> zapcore.File c1 = zapcore.File c2 /\
       zapcore.Line c1 = zapcore.Line c2 /\
       zapcore.Function c1 = zapcore.Function c2).
Proof.
  intros Harr. unfold sourceLocationEncoder. rewrite Harr.
  unfold zapcore.AppendObject, sourceLocation_MarshalLogObject,
    zapcore.AddString. simpl.
  split.
  - intros Heq. apply append_inj in Heq.
    injection Heq as Hf Hl Hfn.
    apply Itoa_inj in Hl. auto.
  - intros (Hf & Hl & Hfn). now rewrite Hf, Hl, Hfn.
Qed.

Lemma sourceLocationEncoder_nested_iff_witness :
  sourceLocationEncoder (zapcore.mkCaller true 4096 "a/b.go" 42 "main.Foo")
    (zapcore.mkEncoder true false [])
  = sourceLocationEncoder (zapcore.mkCaller false 0 "a/b.go" 42 "main.Foo")
      (zapcore.mkEncoder true false [])
  <-> "a/b.go"%string = "a/b.go"%string /\ 42 = 42 /\
      "main.Foo"%string = "main.Foo"%string.
Proof.
  apply (sourceLocationEncoder_nested_iff
           (zapcore.mkCaller true 4096 "a/b.go" 42 "main.Foo")
           (zapcore.mkCaller false 0 "a/b.go" 42 "main.Foo")
           (zapcore.mkEncoder true false [])).
  reflexivity.
Defined.

(** X5. The object that [sourceLocationEncoder] appends on an
    [ArrayEncoder] has three members with pairwise different keys;
    read as a map it gives the caller's file under "file", its
    function under "function", and under "line" a string whose decimal
    reading is the caller's line, also for a zero or negative line. *)
Theorem sourceLocationEncoder_members
    (caller : zapcore.EntryCaller) (enc : zapcore.PrimitiveArrayEncoder) :
  zapcore.isArrayEncoder enc = true ->
  exists (fields : list (string * zapcore.Value)) (line : string),
    sourceLocationEncoder caller enc
    = zapcore.append (zapcore.ObjectElement fields) enc /\
    NoDup fields.*1 /\ length fields = 3%nat /\
    (list_to_map fields : gmap string zapcore.Value) !! "file"%string
    = Some (zapcore.StringValue (zapcore.File caller)) /\
    (list_to_map fields : gmap string zapcore.Value) !! "function"%string
    = Some (zapcore.StringValue (zapcore.Function caller)) /\
    (list_to_map fields : gmap string zapcore.Value) !! "line"%string
    = Some (zapcore.StringValue line) /\
    Z.of_int <$> NilZero.int_of_string line = Some (zapcore.Line caller).
Proof.
  intros Harr. unfold sourceLocationEncoder. rewrite Harr.
  unfold zapcore.AppendObject, sourceLocation_MarshalLogObject,
    zapcore.AddString. simpl.
  eexists _, _. split; [reflexivity|]. simpl.
  split.
  { repeat (apply NoDup_cons; split;
            [rewrite ?elem_of_cons, elem_of_nil; intuition discriminate|]).
    apply NoDup_nil_2. }
  split; [reflexivity|].
  split; [reflexivity|].
  split; [reflexivity|].
  split; [reflexivity|].
  apply Itoa_reads_back.
Qed.

Lemma sourceLocationEncoder_members_witness :
  exists (fields : list (string * zapcore.Value)) (line : string),
    sourceLocationEncoder (zapcore.mkCaller true 0 "a/b.go" (-3) "main.Foo")
      (zapcore.mkEncoder true false [])
    = zapcore.append (zapcore.ObjectElement fields)
        (zapcore.mkEncoder true false []) /\
    NoDup fields.*1 /\ length fields = 3%nat /\
    (list_to_map fields : gmap string zapcore.Value) !! "file"%string
    = Some (zapcore.StringValue "a/b.go") /\
    (list_to_map fields : gmap string zapcore.Value) !! "function"%string
    = Some (zapcore.StringValue "main.Foo") /\
    (list_to_map fields : gmap string zapcore.Value) !! "line"%string
    = Some (zapcore.StringValue line) /\
    Z.of_int <$> NilZero.int_of_string line = Some (-3).
Proof.
  apply (sourceLocationEncoder_members
           (zapcore.mkCaller true 0 "a/b.go" (-3) "main.Foo")
           (zapcore.mkEncoder true false [])).
  reflexivity.
Defined.

(** ** Source location: the trimmed path *)

Section Strings.

Local Open Scope string_scope.

Lemma countByte_app (c : ascii) (s1 s2 : string) :
  countByte c (s1 ++ s2) = (countByte c s1 + countByte c s2)%nat.
Proof. induction s1 as [|a s1 IH]; simpl; [reflexivity|]. rewrite IH. lia. Qed.

Lemma substring_all (s : string) : substring 0 (String.length s) s = s.
Proof. induction s as [|a s IH]; simpl; [reflexivity|]. now rewrite IH. Qed.

Lemma substring_app_prefix (s1 s2 : string) :
  substring 0 (String.length s1) (s1 ++ s2) = s1.
Proof.
  induction s1 as [|a s1 IH]; simpl.
  - now destruct s2.
  - now rewrite IH.
Qed.

Lemma substring_app_skip (s1 s2 : string) (m : nat) :
  substring (String.length s1) m (s1 ++ s2) = substring 0 m s2.
Proof. induction s1 as [|a s1 IH]; simpl; [reflexivity|]. apply IH. Qed.

Lemma string_length_app (s1 s2 : string) :
  String.length (s1 ++ s2) = (String.length s1 + String.length s2)%nat.
Proof. induction s1 as [|a s1 IH]; simpl; [reflexivity|]. now rewrite IH. Qed.

Lemma string_app_assoc (s1 s2 s3 : string) :
  (s1 ++ s2) ++ s3 = s1 ++ (s2 ++ s3).
Proof.
  induction s1 as [|a s1 IH]; [reflexivity|].
  change (String a ((s1 ++ s2) ++ s3) = String a (s1 ++ (s2 ++ s3))).
  now f_equal.
Qed.

(** What [lastIndexByteFrom] computes: either [c] does not occur and
    the accumulator comes back, or the string splits at the last
    occurrence. *)
Lemma lastIndexByteFrom_spec (c : ascii) (s : string) (i acc : Z) :
  (countByte c s = 0%nat /\ strings.lastIndexByteFrom i acc s c = acc) \/
  (exists pre post : string,
      s = pre ++ String c post /\ countByte c post = 0%nat /\
      strings.lastIndexByteFrom i acc s c = (i + Z.of_nat (String.length pre))%Z).
Proof.
  revert i acc. induction s as [|a s IH]; intros i acc; simpl.
  - left. split; reflexivity.
  - destruct (IH (i + 1)%Z (if Ascii.eqb a c then i else acc))
      as [[Hc Hr] | (pre & post & Hs & Hc & Hr)].
    + destruct (Ascii.eqb a c) eqn:Hac.
      * apply Ascii.eqb_eq in Hac. subst a.
        right. exists EmptyString, s. simpl.
        split; [reflexivity|]. split; [exact Hc|]. rewrite Hr. lia.
      * left. split; [exact Hc|exact Hr].
    + right. exists (String a pre), post. simpl.
      split; [now rewrite Hs|]. split; [exact Hc|]. rewrite Hr. lia.
Qed.

Lemma LastIndexByte_spec (c : ascii) (s : string) :
  (countByte c s = 0%nat /\ strings.LastIndexByte s c = (-1)%Z) \/
  (exists pre post : string,
      s = pre ++ String c post /\ countByte c post = 0%nat /\
      strings.LastIndexByte s c = Z.of_nat (String.length pre)).
Proof.
  unfold strings.LastIndexByte.
  destruct (lastIndexByteFrom_spec c s 0 (-1))
    as [H | (pre & post & Hs & Hc & Hr)]; [left; exact H|].
  right. exists pre, post. rewrite Hr. repeat split; assumption || lia.
Qed.

Lemma sliceTo_app (pre rest : string) :
  strings.sliceTo (pre ++ rest) (Z.of_nat (String.length pre)) = pre.
Proof.
  unfold strings.sliceTo. rewrite Nat2Z.id. apply substring_app_prefix.
Qed.

Lemma sliceFrom_app (pre : string) (c : ascii) (post : string) :
  strings.sliceFrom (pre ++ String c post) (Z.of_nat (String.length pre) + 1)
  = post.
Proof.
  unfold strings.sliceFrom.
  replace (Z.to_nat (Z.of_nat (String.length pre) + 1))
    with (String.length (pre ++ String c EmptyString)).
  2:{ rewrite string_length_app. simpl. lia. }
  replace (pre ++ String c post)
    with ((pre ++ String c EmptyString) ++ post).
  2:{ rewrite string_app_assoc. reflexivity. }
  rewrite substring_app_skip, string_length_app.
  replace (String.length (pre ++ String c EmptyString) + String.length post
           - String.length (pre ++ String c EmptyString))%nat
    with (String.length post) by lia.
  apply substring_all.
Qed.

(** The trimmed path of a defined caller: a tail of the file path with
    at most one separator in it, followed by the line. *)
Lemma TrimmedPath_defined (ec : zapcore.EntryCaller) :
  zapcore.Defined ec = true ->
  exists dir path : string,
    zapcore.File ec = dir ++ path /\
    zapcore.TrimmedPath ec = path ++ ":" ++ strconv.Itoa (zapcore.Line ec) /\
    countByte "/" path = Nat.min 1 (countByte "/" (zapcore.File ec)) /\
    ((countByte "/" (zapcore.File ec) <= 1)%nat -> dir = EmptyString).
Proof.
  intros Hdef. unfold zapcore.TrimmedPath, zapcore.FullPath. rewrite Hdef. simpl.
  destruct (LastIndexByte_spec "/" (zapcore.File ec))
    as [[Hc Hr] | (pre & post & Hs & Hc & Hr)]; rewrite Hr.
  - exists EmptyString, (zapcore.File ec). simpl.
    repeat split. now rewrite Hc.
  - replace (Z.of_nat (String.length pre) =? -1)%Z with false
      by (symmetry; apply Z.eqb_neq; lia).
    assert (Hto : strings.sliceTo (zapcore.File ec)
                    (Z.of_nat (String.length pre)) = pre)
      by (rewrite Hs; apply sliceTo_app).
    rewrite Hto.
    destruct (LastIndexByte_spec "/" pre)
      as [[Hc' Hr'] | (pre' & post' & Hs' & Hc' & Hr')]; rewrite Hr'.
    + exists EmptyString, (zapcore.File ec). simpl.
      repeat split.
      rewrite Hs, countByte_app. simpl. rewrite Hc, Hc'. reflexivity.
    + replace (Z.of_nat (String.length pre') =? -1)%Z with false
        by (symmetry; apply Z.eqb_neq; lia).
      assert (Hfile : zapcore.File ec
                      = pre' ++ String "/" (post' ++ String "/" post)).
      { rewrite Hs, Hs'. rewrite string_app_assoc. reflexivity. }
      rewrite Hfile, sliceFrom_app.
      exists (pre' ++ "/"), (post' ++ String "/" post).
      split; [now rewrite string_app_assoc|].
      split; [reflexivity|].
      rewrite !countByte_app. simpl. rewrite !countByte_app. simpl.
      rewrite Hc, Hc'.
      destruct (countByte "/" pre'); simpl; split; lia.
Qed.

End Strings.

(** X6. On an encoder that is no [ArrayEncoder], [sourceLocationEncoder]
    appends one string.  For a defined caller it is a tail of the file
    path, a colon and the line in decimal; for a caller that is not
    defined it is "undefined", whatever file and line the caller
    carries. *)
Theorem sourceLocationEncoder_flat_shape
    (caller : zapcore.EntryCaller) (enc : zapcore.PrimitiveArrayEncoder) :
  zapcore.isArrayEncoder enc = false ->
  exists s : string,
    sourceLocationEncoder caller enc = zapcore.AppendString s enc /\
    if zapcore.Defined caller then
      exists dir path : string,
        zapcore.File caller = (dir ++ path)%string /\
        s = (path ++ ":" ++ strconv.Itoa (zapcore.Line caller))%string
    else s = "undefined"%string.
Proof.
  intros Harr. unfold sourceLocationEncoder. rewrite Harr.
  eexists. split; [reflexivity|].
  destruct (zapcore.Defined caller) eqn:Hdef.
  - destruct (TrimmedPath_defined caller Hdef) as (dir & path & Hf & Ht & _).
    exists dir, path. split; assumption.
  - unfold zapcore.TrimmedPath. now rewrite Hdef.
Qed.

Lemma sourceLocationEncoder_flat_shape_witness :
  exists s : string,
    sourceLocationEncoder
      (zapcore.mkCaller false 0 "/src/pkg/sub/b.go" 42 "main.Foo")
      (zapcore.mkEncoder false false [])
    = zapcore.AppendString s (zapcore.mkEncoder false false []) /\
    s = "undefined"%string.
Proof.
  apply (sourceLocationEncoder_flat_shape
           (zapcore.mkCaller false 0 "/src/pkg/sub/b.go" 42 "main.Foo")
           (zapcore.mkEncoder false false [])).
  reflexivity.
Defined.

(** The trimmed path of a defined caller, in full: the file path as it
    is when it has no or one separator, and otherwise what follows the
    last separator but one. *)
Lemma TrimmedPath_defined_parts (ec : zapcore.EntryCaller) :
  zapcore.Defined ec = true ->
  exists path : string,
    zapcore.TrimmedPath ec
    = (path ++ ":" ++ strconv.Itoa (zapcore.Line ec))%string /\
    countByte "/" path = Nat.min 1 (countByte "/" (zapcore.File ec)) /\
    ((countByte "/" (zapcore.File ec) <= 1)%nat -> path = zapcore.File ec) /\
    ((2 <= countByte "/" (zapcore.File ec))%nat ->
     exists pre dir base : string,
       zapcore.File ec = (pre ++ "/" ++ dir ++ "/" ++ base)%string /\
       countByte "/" dir = 0%nat /\ countByte "/" base = 0%nat /\
       path = (dir ++ "/" ++ base)%string).
Proof.
  intros Hdef. unfold zapcore.TrimmedPath, zapcore.FullPath. rewrite Hdef. simpl.
  destruct (LastIndexByte_spec "/" (zapcore.File ec))
    as [[Hc Hr] | (pre & post & Hs & Hc & Hr)]; rewrite Hr.
  - exists (zapcore.File ec). simpl. rewrite Hc.
    repeat split; try reflexivity. intros Hge. lia.
  - replace (Z.of_nat (String.length pre) =? -1)%Z with false
      by (symmetry; apply Z.eqb_neq; lia).
    assert (Hto : strings.sliceTo (zapcore.File ec)
                    (Z.of_nat (String.length pre)) = pre)
      by (rewrite Hs; apply sliceTo_app).
    rewrite Hto.
    destruct (LastIndexByte_spec "/" pre)
      as [[Hc' Hr'] | (pre' & post' & Hs' & Hc' & Hr')]; rewrite Hr'.
    + exists (zapcore.File ec). simpl.
      assert (Hone : countByte "/" (zapcore.File ec) = 1%nat).
      { rewrite Hs, countByte_app. simpl. rewrite Hc, Hc'. reflexivity. }
      rewrite Hone. repeat split; try reflexivity. intros Hge. lia.
    + replace (Z.of_nat (String.length pre') =? -1)%Z with false
        by (symmetry; apply Z.eqb_neq; lia).
      assert (Hfile : zapcore.File ec
                      = (pre' ++ String "/" (post' ++ String "/" post))%string).
      { rewrite Hs, Hs'. rewrite string_app_assoc. reflexivity. }
      assert (Hpath : countByte "/" (post' ++ String "/" post)%string = 1%nat).
      { rewrite countByte_app. simpl. rewrite Hc, Hc'. reflexivity. }
      assert (Hmany : (2 <= countByte "/" (zapcore.File ec))%nat).
      { rewrite Hfile, countByte_app. simpl. rewrite Hpath. lia. }
      assert (Hfrom : strings.sliceFrom (zapcore.File ec)
                        (Z.of_nat (String.length pre') + 1)
                      = (post' ++ String "/" post)%string)
        by (rewrite Hfile; apply sliceFrom_app).
      rewrite Hfrom.
      exists (post' ++ String "/" post)%string.
      split; [reflexivity|]. split.
      { rewrite Hpath. destruct (countByte "/" (zapcore.File ec)) as [|[|n]];
          [lia | lia | reflexivity]. }
      split; [intros Hle; lia|].
      intros _. exists pre', post', post.
      split; [exact Hfile|]. split; [exact Hc'|]. split; [exact Hc|].
      reflexivity.
Qed.

(** X7. For a defined caller the path part of that string holds at most
    one separator: a file path with no or one slash is kept whole, and
    a longer one is cut to what follows its last slash but one, that
    is, to its last directory and the file name. *)
Theorem sourceLocationEncoder_flat_separators
    (caller : zapcore.EntryCaller) (enc : zapcore.PrimitiveArrayEncoder) :
  zapcore.isArrayEncoder enc = false ->
  zapcore.Defined caller = true ->
  exists path : string,
    sourceLocationEncoder caller enc
    = zapcore.AppendString
        (path ++ ":" ++ strconv.Itoa (zapcore.Line caller))%string enc /\
    countByte "/" path = Nat.min 1 (countByte "/" (zapcore.File caller)) /\
    ((countByte "/" (zapcore.File caller) <= 1)%nat ->
     path = zapcore.File caller) /\
    ((2 <= countByte "/" (zapcore.File caller))%nat ->
     exists pre dir base : string,
       zapcore.File caller = (pre ++ "/" ++ dir ++ "/" ++ base)%string /\
       countByte "/" dir = 0%nat /\ countByte "/" base = 0%nat /\
       path = (dir ++ "/" ++ base)%string).
Proof.
  intros Harr Hdef. unfold sourceLocationEncoder. rewrite Harr.
  destruct (TrimmedPath_defined_parts caller Hdef)
    as (path & Ht & Hcount & Hwhole & Hcut).
  exists path. rewrite Ht. repeat split; assumption.
Qed.

Lemma sourceLocationEncoder_flat_separators_witness :
  exists path : string,
    sourceLocationEncoder
      (zapcore.mkCaller true 0 "/src/pkg/sub/b.go" 42 "main.Foo")
      (zapcore.mkEncoder false false [])
    = zapcore.AppendString (path ++ ":" ++ strconv.Itoa 42)%string
        (zapcore.mkEncoder false false []) /\
    countByte "/" path = Nat.min 1 (countByte "/" "/src/pkg/sub/b.go") /\
    ((countByte "/" "/src/pkg/sub/b.go" <= 1)%nat ->
     path = "/src/pkg/sub/b.go"%string) /\
    ((2 <= countByte "/" "/src/pkg/sub/b.go")%nat ->
     exists pre dir base : string,
       "/src/pkg/sub/b.go"%string = (pre ++ "/" ++ dir ++ "/" ++ base)%string /\
       countByte "/" dir = 0%nat /\ countByte "/" base = 0%nat /\
       path = (dir ++ "/" ++ base)%string).
Proof.
  apply (sourceLocationEncoder_flat_separators
           (zapcore.mkCaller true 0 "/src/pkg/sub/b.go" 42 "main.Foo")
           (zapcore.mkEncoder false false [])); reflexivity.
Defined.

(** The deep path of the witness is cut to "sub/b.go". *)
Example sourceLocationEncoder_flat_deep :
  zapcore.elems
    (sourceLocationEncoder
       (zapcore.mkCaller true 0 "/src/pkg/sub/b.go" 42 "main.Foo")
       (zapcore.mkEncoder false false []))
  = [ zapcore.StringElement "sub/b.go:42" ].
Proof. vm_compute. reflexivity. Qed.

(** ** Timestamp: the object *)

(** X8. On an [ArrayEncoder], two times are encoded alike exactly when
    they are the same instant: the location of a time does not show in
    the object, and different instants never share one. *)
Theorem timestampEncoder_nested_iff
    (t1 t2 : time.Time) (enc : zapcore.PrimitiveArrayEncoder) :
  zapcore.isArrayEncoder enc = true ->
  (timestampEncoder t1 enc = timestampEncoder t2 enc
   <-> time.instant t1 = time.instant t2).
Proof.
  intros Harr. rewrite !timestampEncoder_array by exact Harr.
  split.
  - intros Heq. apply append_inj in Heq. injection Heq as Hs Hn.
    rewrite <- (Unix_Nanosecond t1), <- (Unix_Nanosecond t2). lia.
  - intros Heq. unfold time.Unix, time.Nanosecond. now rewrite Heq.
Qed.

Lemma timestampEncoder_nested_iff_witness :
  timestampEncoder (time.mkTime 1700000000123000000 0)
    (zapcore.mkEncoder true true [])
  = timestampEncoder (time.mkTime 1700000000123000000 32400)
      (zapcore.mkEncoder true true [])
  <-> 1700000000123000000 = 1700000000123000000.
Proof.
  apply (timestampEncoder_nested_iff
           (time.mkTime 1700000000123000000 0)
           (time.mkTime 1700000000123000000 32400)
           (zapcore.mkEncoder true true [])).
  reflexivity.
Defined.

(** X9. The objects keep the order of time: of two times, the first is
    the earlier one exactly when its object has the smaller "seconds",
    or the same "seconds" and the smaller "nanos". *)
Theorem timestampEncoder_order
    (t1 t2 : time.Time) (enc : zapcore.PrimitiveArrayEncoder)
    (s1 n1 s2 n2 : Z) :
  zapcore.isArrayEncoder enc = true ->
  timestampEncoder t1 enc
  = zapcore.append
      (zapcore.ObjectElement
         [ ("seconds"%string, zapcore.Int64Value s1);
           ("nanos"%string, zapcore.IntValue n1) ]) enc ->
  timestampEncoder t2 enc
  = zapcore.append
      (zapcore.ObjectElement
         [ ("seconds"%string, zapcore.Int64Value s2);
           ("nanos"%string, zapcore.IntValue n2) ]) enc ->
  (time.instant t1 < time.instant t2 <-> s1 < s2 \/ (s1 = s2 /\ n1 < n2)).
Proof.
  intros Harr H1 H2.
  rewrite timestampEncoder_array in H1, H2 by exact Harr.
  apply append_inj in H1, H2.
  injection H1 as <- <-. injection H2 as <- <-.
  pose proof (Nanosecond_range t1). pose proof (Nanosecond_range t2).
  rewrite <- (Unix_Nanosecond t1), <- (Unix_Nanosecond t2). lia.
Qed.

Lemma timestampEncoder_order_witness :
  -500000000 < 250000000 <-> -1 < 0 \/ (-1 = 0 /\ 500000000 < 250000000).
Proof.
  apply (timestampEncoder_order
           (time.mkTime (-500000000) 0) (time.mkTime 250000000 0)
           (zapcore.mkEncoder true false [])
           (-1) 500000000 0 250000000); reflexivity.
Defined.

(** ** The builders *)

(** X10. Within one configuration returned by either builder the level
    cell, the sampling record and the backing arrays of the two path
    slices are four different cells, and each slice is full (length
    and capacity 1).  So the output paths and the error output paths
    do not alias: whatever is stored in the array of one, the other
    still reads stderr. *)
Theorem builder_cells_distinct
    (development : bool) (h : gmap zap.loc zap.cell) :
  let '(c, h') := builder development h in
  exists q : zap.loc,
    zap.Sampling c = Some q /\
    NoDup [ zap.l (zap.ConfigLevel c); q;
            zap.array (zap.OutputPaths c);
            zap.array (zap.ErrorOutputPaths c) ] /\
    zap.len (zap.OutputPaths c) = 1%nat /\
    zap.cap (zap.OutputPaths c) = 1%nat /\
    zap.len (zap.ErrorOutputPaths c) = 1%nat /\
    zap.cap (zap.ErrorOutputPaths c) = 1%nat /\
    (forall v : zap.cell,
        zap.readSlice (zap.ErrorOutputPaths c)
          (<[zap.array (zap.OutputPaths c) := v]> h')
        = Some ["stderr"%string] /\
        zap.readSlice (zap.OutputPaths c)
          (<[zap.array (zap.ErrorOutputPaths c) := v]> h')
        = Some ["stderr"%string]).
Proof.
  destruct (builder_run development h)
    as (p1 & p2 & p3 & p4 & _ & Hne & ->).
  destruct Hne as (H12 & H13 & H14 & H23 & H24 & H34).
  exists p2. simpl. split; [reflexivity|]. split.
  { repeat (apply NoDup_cons; split;
            [rewrite ?elem_of_cons, elem_of_nil; intuition congruence|]).
    apply NoDup_nil_2. }
  repeat (split; [reflexivity|]).
  intros v. unfold zap.readSlice. simpl.
  split; simplify_map_eq; reflexivity.
Qed.

Lemma int8_of_int32_of_int8 (x : Z) :
  zapcore.isInt8 x -> zap.int8_of_int32 (zap.int32_of_int8 x) = x.
Proof.
  unfold zapcore.isInt8, zap.int8_of_int32, zap.int32_of_int8. intros Hx.
  rewrite Z.mod_small by lia. lia.
Qed.

(** X13. The level of a configuration returned by either builder can
    be changed in place: after [SetLevel] through its [AtomicLevel]
    the configuration reads the new level, and every other field is
    as the builder left it. *)
Theorem builder_SetLevel
    (development : bool) (h : gmap zap.loc zap.cell) (x : zapcore.Level) :
  zapcore.isInt8 x ->
  let '(c, h1) := builder development h in
  let '(_, h2) := zap.SetLevel (zap.ConfigLevel c) x h1 in
  zap.Level (zap.ConfigLevel c) h2 = Some x /\
  zap.valueOf c h2 =
  Some {| zap.vLevel := x;
          zap.vDevelopment := development;
          zap.vDisableCaller := false;
          zap.vDisableStacktrace := false;
          zap.vSampling := Some (zap.mkSampling 100 100);
          zap.vEncoding := "json";
          zap.vEncoderConfig := encoderConfig;
          zap.vOutputPaths := ["stderr"%string];
          zap.vErrorOutputPaths := ["stderr"%string];
          zap.vInitialFields := None |}.
Proof.
  intros Hx.
  destruct (builder_run development h)
    as (p1 & p2 & p3 & p4 & _ & Hne & ->).
  destruct Hne as (H12 & H13 & H14 & H23 & H24 & H34).
  unfold zap.SetLevel, zap.store, zap.valueOf, zap.Level,
    zap.readSampling, zap.readSlice. simpl.
  simplify_map_eq.
  rewrite (int8_of_int32_of_int8 x Hx). split; reflexivity.
Qed.

Lemma builder_SetLevel_witness :
  let '(c, h1) := builder false ∅ in
  let '(_, h2) := zap.SetLevel (zap.ConfigLevel c) zapcore.ErrorLevel h1 in
  zap.Level (zap.ConfigLevel c) h2 = Some zapcore.ErrorLevel /\
  zap.valueOf c h2 =
  Some {| zap.vLevel := zapcore.ErrorLevel;
          zap.vDevelopment := false;
          zap.vDisableCaller := false;
          zap.vDisableStacktrace := false;
          zap.vSampling := Some (zap.mkSampling 100 100);
          zap.vEncoding := "json";
          zap.vEncoderConfig := encoderConfig;
          zap.vOutputPaths := ["stderr"%string];
          zap.vErrorOutputPaths := ["stderr"%string];
          zap.vInitialFields := None |}.
Proof.
  apply (builder_SetLevel false ∅ zapcore.ErrorLevel).
  unfold zapcore.isInt8, zapcore.ErrorLevel. lia.
Defined.


(** ** Durations *)

(** X14. The duration callback of the encoder configuration appends
    the duration in whole milliseconds, cut towards zero: what is
    dropped is less than a millisecond and has the sign of the
    duration, so a duration shorter than a millisecond, negative or
    not, goes out as 0. *)
Theorem EncodeDuration_millis
    (d : time.Duration) (enc : zapcore.PrimitiveArrayEncoder) :
  exists (f : zapcore.DurationEncoder) (ms : Z),
    zapcore.EncodeDuration encoderConfig = Some f /\
    f d enc = zapcore.AppendInt64 ms enc /\
    Z.abs (d - ms * 1000000) < 1000000 /\
    0 <= (d - ms * 1000000) * d /\
    (Z.abs d < 1000000 -> ms = 0).
Proof.
  exists zapcore.MillisDurationEncoder, (Z.quot d 1000000).
  split; [reflexivity|]. split; [reflexivity|].
  unfold time.Duration in d.
  pose proof (Z.quot_rem' d 1000000) as Hqr.
  pose proof (Z.rem_bound_abs d 1000000 ltac:(lia)) as Hb.
  pose proof (Z.rem_sign_mul d 1000000 ltac:(lia)) as Hs.
  replace (d - Z.quot d 1000000 * 1000000) with (Z.rem d 1000000) by lia.
  split; [lia|]. split; [lia|].
  intros Hsmall. apply Z.quot_small_iff; lia.
Qed.

Example EncodeDuration_negative :
  zapcore.elems
    (zapcore.MillisDurationEncoder (-1500000) (zapcore.mkEncoder false false []))
  = [ zapcore.Int64Element (-1) ].
Proof. reflexivity. Qed.
